(** * FastApiHandler: request validation and scoring

    A shallow embedding of [app/fastapi_handler_regression.py].  The
    handler receives a decoded JSON value, validates its shape, assembles
    the feature vector in the order the model expects, calls the model and
    turns every exception into an error object.

    Python values are the JSON-decoded ones (None, bool, int, float, str,
    list, dict with string keys).  A dict is an association list in
    insertion order, because [list(model_params.values())] depends on that
    order.  A str is held as the bytes of its UTF-8 encoding; a surrogate
    code point, which UTF-8 cannot encode, is held in the three-byte form
    ED A0..BF 80..BF.  Exceptions are modelled by a small error monad.

    The debug [print] calls write to standard output, taken to be open and
    UTF-8 encoded.  A call that formats a value of the request or the
    text of an exception can raise, and is modelled: [repr] of a deeply
    nested value raises [RecursionError], an int of more than 4300 digits
    raises [ValueError], a str with a surrogate written as it is raises
    [UnicodeEncodeError].  Calls that format only constant text, booleans,
    floats, type objects or the handler's own lists of feature names
    cannot raise and are left out, apart from the one before the [try] of
    [handle], which nothing would catch. *)

From Stdlib Require Import String Ascii List ZArith Bool Permutation Lia.
From Stdlib Require Import Floats.PrimFloat.
Import ListNotations.

Local Open Scope string_scope.
Local Open Scope list_scope.

(** ** The fragment of Python the handler runs on *)

Module Py.

#[warnings="-register-all"]
Inductive value : Type :=
| VNone
| VBool (b : bool)
| VInt (n : Z)
| VFloat (x : float)
| VStr (s : string)
| VList (items : list value)
| VDict (entries : list (string * value)).

Definition dict := list (string * value).

(** Exceptions deriving from [Exception].  [exn_arg] is the single
    argument the exception was built with; for [UnicodeEncodeError] it is
    the text that could not be encoded. *)
Inductive exn_class :=
| KeyError
| TypeError
| AttributeError
| IndexError
| RecursionError
| ValueError
| UnicodeEncodeError
| OtherError (name : string).

Record exn := mkExn { exn_cls : exn_class; exn_arg : string }.

Inductive result (A : Type) : Type :=
| Ok (a : A)
| Raise (e : exn).

Arguments Ok {A} a.
Arguments Raise {A} e.

Definition bind {A B} (c : result A) (k : A -> result B) : result B :=
  match c with
  | Ok a => k a
  | Raise e => Raise e
  end.

(** [try: c  except Exception as e: h e] *)
Definition try_except {A} (c : result A) (h : exn -> result A) : result A :=
  match c with
  | Ok a => Ok a
  | Raise e => h e
  end.

Notation "x <- c ;; k" := (bind c (fun x => k))
  (at level 61, c at next level, right associativity).

(** A statement run for its effect. *)
Notation "'exec' c ;; k" := (bind c (fun _ => k))
  (at level 61, c at next level, right associativity).

(** A list comprehension [[f(x) for x in l]]: left to right, stopping at
    the first exception. *)
Fixpoint mapM {A B} (f : A -> result B) (l : list A) : result (list B) :=
  match l with
  | [] => Ok []
  | x :: xs => y <- f x ;; ys <- mapM f xs ;; Ok (y :: ys)
  end.

(** A list comprehension with a condition, [[x for x in l if p(x)]]. *)
Fixpoint filterM {A} (p : A -> result bool) (l : list A) : result (list A) :=
  match l with
  | [] => Ok []
  | x :: xs =>
      b <- p x ;; ys <- filterM p xs ;; Ok (if b then x :: ys else ys)
  end.

(** [all(p(x) for x in l)]: the generator is consumed up to the first
    false element. *)
Fixpoint allM {A} (p : A -> result bool) (l : list A) : result bool :=
  match l with
  | [] => Ok true
  | x :: xs => b <- p x ;; if b then allM p xs else Ok false
  end.

(** Visiting the elements in order for their effect only. *)
Fixpoint iterM {A} (f : A -> result unit) (l : list A) : result unit :=
  match l with
  | [] => Ok tt
  | x :: xs => exec f x ;; iterM f xs
  end.

Definition type_name (v : value) : string :=
  match v with
  | VNone => "NoneType"
  | VBool _ => "bool"
  | VInt _ => "int"
  | VFloat _ => "float"
  | VStr _ => "str"
  | VList _ => "list"
  | VDict _ => "dict"
  end.

Fixpoint lookup (k : string) (d : dict) : option value :=
  match d with
  | [] => None
  | (k', v) :: d' => if String.eqb k k' then Some v else lookup k d'
  end.

Definition keys (d : dict) : list string := map fst d.

Definition has_key (k : string) (d : dict) : bool :=
  existsb (String.eqb k) (keys d).

(** [sub in s] on two strings: substring test. *)
Fixpoint str_contains (sub s : string) : bool :=
  String.prefix sub s
  || match s with
     | EmptyString => false
     | String _ s' => str_contains sub s'
     end.

(** [v == s] for a string [s]: only an equal string compares equal. *)
Definition eq_str (s : string) (v : value) : bool :=
  match v with
  | VStr t => String.eqb s t
  | _ => false
  end.

(** [k in c] for a string [k]. *)
Definition contains (k : string) (c : value) : result bool :=
  match c with
  | VDict d => Ok (has_key k d)
  | VList l => Ok (existsb (eq_str k) l)
  | VStr s => Ok (str_contains k s)
  | _ => Raise (mkExn TypeError
                  ("argument of type '" ++ type_name c ++ "' is not iterable"))
  end.

(** [c[k]] for a string [k]. *)
Definition getitem (c : value) (k : string) : result value :=
  match c with
  | VDict d =>
      match lookup k d with
      | Some v => Ok v
      | None => Raise (mkExn KeyError k)
      end
  | VList _ =>
      Raise (mkExn TypeError "list indices must be integers or slices, not str")
  | VStr _ =>
      Raise (mkExn TypeError "string indices must be integers, not 'str'")
  | _ => Raise (mkExn TypeError
                  ("'" ++ type_name c ++ "' object is not subscriptable"))
  end.

(** [for x in c]: the elements the loop visits. *)
Definition iter (c : value) : result (list value) :=
  match c with
  | VDict d => Ok (map VStr (keys d))
  | VList l => Ok l
  | VStr s =>
      Ok (map (fun a => VStr (String a EmptyString)) (list_ascii_of_string s))
  | _ => Raise (mkExn TypeError
                  ("'" ++ type_name c ++ "' object is not iterable"))
  end.

(** [c.values()] turned into a list. *)
Definition values (c : value) : result (list value) :=
  match c with
  | VDict d => Ok (map snd d)
  | _ => Raise (mkExn AttributeError
                  ("'" ++ type_name c ++ "' object has no attribute 'values'"))
  end.

(** [d[k] = v] on a dict: an existing key keeps its position. *)
Fixpoint dict_set (k : string) (v : value) (d : dict) : dict :=
  match d with
  | [] => [(k, v)]
  | (k', v') :: d' =>
      if String.eqb k k' then (k, v) :: d' else (k', v') :: dict_set k v d'
  end.

Definition isinstance_str (v : value) : bool :=
  match v with VStr _ => true | _ => false end.

Definition isinstance_dict (v : value) : bool :=
  match v with VDict _ => true | _ => false end.

(** [a[0]] on the one-dimensional array [predict] returns. *)
Definition first (a : list float) : result float :=
  match a with
  | x :: _ => Ok x
  | [] => Raise (mkExn IndexError
                   "index 0 is out of bounds for axis 0 with size 0")
  end.

(** [float(x)] on a [numpy.float64], which already is a Python float. *)
Definition to_float (x : float) : float := x.

(** *** Formatting and writing *)

(** The smallest int of 4301 digits, [sys.int_info.default_max_str_digits]
    being 4300. *)
Definition max_str_int : Z := Eval vm_compute in (10 ^ 4300)%Z.

(** Converting the int to decimal text exceeds the digit limit. *)
Definition int_too_long (n : Z) : bool := (max_str_int <=? Z.abs n)%Z.

Definition recursion_exn : exn :=
  mkExn RecursionError
    "maximum recursion depth exceeded while getting the repr of an object".

Definition digits_exn : exn :=
  mkExn ValueError
    "Exceeds the limit (4300 digits) for integer string conversion; use sys.set_int_max_str_digits() to increase the limit".

(** [repr(v)] for its exceptions only: containers are entered left to
    right, [depth] counts the levels of containers that may still be
    entered. *)
Fixpoint repr_check (depth : nat) (v : value) {struct depth} : result unit :=
  match v with
  | VInt n => if int_too_long n then Raise digits_exn else Ok tt
  | VList items =>
      match depth with
      | 0 => Raise recursion_exn
      | S d => iterM (repr_check d) items
      end
  | VDict entries =>
      match depth with
      | 0 => Raise recursion_exn
      | S d => iterM (fun kv => repr_check d (snd kv)) entries
      end
  | _ => Ok tt
  end.

(** The text holds a surrogate code point: byte ED followed by a byte in
    A0..BF. *)
Fixpoint has_surrogate (s : string) : bool :=
  match s with
  | String a s' =>
      match s' with
      | String b _ =>
          (Nat.eqb (nat_of_ascii a) 237
           && Nat.leb 160 (nat_of_ascii b) && Nat.leb (nat_of_ascii b) 191)
          || has_surrogate s'
      | EmptyString => false
      end
  | EmptyString => false
  end.

(** Writing a line of text to standard output. *)
Definition write (text : string) : result unit :=
  if has_surrogate text then Raise (mkExn UnicodeEncodeError text)
  else Ok tt.

(** [print(f"<prefix>{v}")]: a str is written as it is, any other value
    through [repr], whose text escapes what cannot be encoded. *)
Definition print_value (depth : nat) (prefix : string) (v : value)
  : result unit :=
  match v with
  | VStr s => write (prefix ++ s)
  | _ => repr_check depth v
  end.

(** [print(f"<prefix>{e}")]: [str] of a [KeyError] is a [repr] and that of
    a [UnicodeEncodeError] shows the character escaped; any other text is
    written as it is. *)
Definition print_exn (prefix : string) (e : exn) : result unit :=
  match exn_cls e with
  | KeyError | UnicodeEncodeError => Ok tt
  | _ => write (prefix ++ exn_arg e)
  end.

Definition nl : string := String "010" EmptyString.

End Py.

Import Py.

(** ** The interpreter the handler runs in

    [repr_str] is [repr] on a str, which [str] of a [KeyError] shows.
    [codec_error_str] is [str] of the [UnicodeEncodeError] that writing a
    text raises.  [repr] can always enter the two levels of a request of
    the expected shape; [spare_depth] is how many more levels the
    recursion limit leaves. *)

Record Runtime := mkRuntime {
  repr_str : string -> string;
  codec_error_str : string -> string;
  spare_depth : nat
}.

Definition repr_depth (rt : Runtime) : nat := S (S (spare_depth rt)).

(** ** The loaded model

    The CatBoost regressor is outside the repository.  It is taken as it
    is used: [feature_names_] is the attribute read with [hasattr] (absent
    is [None]), and [predict] maps a batch of rows to a one-dimensional
    array of scores or raises. *)

Record Model := mkModel {
  feature_names_ : option (list string);
  predict : list (list value) -> result (list float)
}.

Module FastApiHandler.

Section Handler.

Variable rt : Runtime.

Variable model : Model.

(** [str(e)] *)
Definition str_exn (e : exn) : string :=
  match exn_cls e with
  | KeyError => repr_str rt (exn_arg e)
  | UnicodeEncodeError => codec_error_str rt (exn_arg e)
  | _ => exn_arg e
  end.

(** [self.feature_names], set in [__init__]. *)
Definition feature_names : option (list string) := feature_names_ model.

(** [self.required_model_params]: the model's feature names when the list
    is truthy, the default list otherwise. *)
Definition required_model_params : list string :=
  match feature_names with
  | Some (n :: ns) => n :: ns
  | _ => ["gender"; "Type"; "PaperlessBilling"; "PaymentMethod";
          "MonthlyCharges"; "TotalCharges"]
  end.

(** The local [input_data] of [credit_rating_predict]. *)
Definition input_data (model_params : value) : result (list value) :=
  match feature_names with
  | Some (n :: ns) => mapM (getitem model_params) (n :: ns)
  | _ => values model_params
  end.

Definition credit_rating_predict (model_params : value) : result float :=
  exec print_value (repr_depth rt) "Raw model_params received: "
         model_params ;;
  row <- input_data model_params ;;
  exec print_value (repr_depth rt) "Prepared input data: " (VList row) ;;
  out <- predict model [row] ;;
  first out.

Definition check_required_query_params (query_params : value) : result bool :=
  exec print_value (repr_depth rt) "Query params received: " query_params ;;
  has_id <- contains "client_id" query_params ;;
  missing <- (if negb has_id then Ok true
              else has_mp <- contains "model_params" query_params ;;
                   Ok (negb has_mp)) ;;
  if missing then Ok false
  else
    client_id <- getitem query_params "client_id" ;;
    if negb (isinstance_str client_id) then Ok false
    else
      mp <- getitem query_params "model_params" ;;
      if negb (isinstance_dict mp) then Ok false
      else Ok true.

Definition check_required_model_params (model_params : value) : result bool :=
  exec print_value (repr_depth rt) "Model params received: " model_params ;;
  missing_params <-
    filterM (fun param => b <- contains param model_params ;; Ok (negb b))
            required_model_params ;;
  params <- iter model_params ;;
  let extra_params :=
    filter (fun param => negb (existsb (fun r => eq_str r param)
                                       required_model_params)) params in
  exec (match missing_params with
        | [] => Ok tt
        | _ => print_value (repr_depth rt) "Missing required params: "
                 (VList (map VStr missing_params))
        end) ;;
  exec (match extra_params with
        | [] => Ok tt
        | _ => print_value (repr_depth rt) "Extra params provided: "
                 (VList extra_params)
        end) ;;
  allM (fun param => contains param model_params) required_model_params.

Definition validate_params (params : value) : result bool :=
  query_check <- check_required_query_params params ;;
  if negb query_check then Ok false
  else
    mp <- getitem params "model_params" ;;
    model_check <- check_required_model_params mp ;;
    if negb model_check then Ok false
    else Ok true.

(** The body of the [try] block of [handle]. *)
Definition handle_try (params : value) : result value :=
  valid <- validate_params params ;;
  if negb valid then Ok (VDict [("Error", VStr "Problem with parameters")])
  else
    model_params <- getitem params "model_params" ;;
    client_id <- getitem params "client_id" ;;
    exec print_value (repr_depth rt) "Predicting for client_id: " client_id ;;
    exec print_value (repr_depth rt) ("Model params:" ++ nl) model_params ;;
    predicted_rating <- credit_rating_predict model_params ;;
    Ok (VDict [("client_id", client_id);
               ("predicted_credit_rating",
                VFloat (to_float predicted_rating))]).

Definition handle (params : value) : result value :=
  exec write (nl ++ "Handling request...") ;;
  try_except (handle_try params)
    (fun e =>
       exec print_exn "Error while handling request: " e ;;
       Ok (VDict [("Error", VStr (str_exn e))])).

End Handler.

End FastApiHandler.

(** ** The validator as the specification words it *)

(** [validate(request)]: the short-circuit conjunction of the shape check
    and the completeness check on the request's [model_params]. *)
Definition validate_spec (rt : Runtime) (model : Model) (request : value)
  : result bool :=
  shape <- FastApiHandler.check_required_query_params rt request ;;
  if shape
  then mp <- getitem request "model_params" ;;
       FastApiHandler.check_required_model_params rt model mp
  else Ok false.

(** The shape check on a dict in closed form: both keys present, a string
    under [client_id] and a dict under [model_params]. *)
Definition shape_ok (d : dict) : bool :=
  match lookup "client_id" d, lookup "model_params" d with
  | Some (VStr _), Some (VDict _) => true
  | _, _ => false
  end.

(** The request with the entries of [model_params] under the keys [extras]
    taken out. *)
Definition without_keys (extras : list string) (d : dict) : dict :=
  filter (fun kv => negb (existsb (String.eqb (fst kv)) extras)) d.

(** The values [in] and indexing reject: everything but str, list and
    dict. *)
Definition is_scalar (v : value) : bool :=
  match v with
  | VStr _ | VList _ | VDict _ => false
  | _ => true
  end.

(** [repr] of the value raises nothing. *)
Definition reprs (rt : Runtime) (v : value) : Prop :=
  repr_check (repr_depth rt) v = Ok tt.

(** The exception can be reported by the [print] of the [except] clause
    of [handle]. *)
Definition reportable (e : exn) : Prop :=
  print_exn "Error while handling request: " e = Ok tt.

(** Whatever the computation raises satisfies [P]. *)
Definition raises_only {A} (P : exn -> Prop) (c : result A) : Prop :=
  forall e, c = Raise e -> P e.

(** ** Start-up and the script's test request *)

Module Startup.

(** The fields [__init__] leaves on the handler. *)
Record handler := mkHandler {
  h_model : Model;
  h_feature_names : option (list string);
  h_required_model_params : list string
}.

Section Loader.

(** [CatBoostRegressor()] followed by [load_model(model_path)]: the loaded
    model, or the exception of the failed load. *)
Variable load_model : string -> result Model.

Variable rt : Runtime.

(** The [except] clause prints and re-raises; what it prints is the
    loader's own message about a constant path. *)
Definition load_credit_model (model_path : string) : result Model :=
  try_except (load_model model_path) (fun e => Raise e).

(** [FastApiHandler()] *)
Definition init : result handler :=
  model <- load_credit_model "models/catboost_credit_model.bin" ;;
  Ok (mkHandler model
                (FastApiHandler.feature_names model)
                (FastApiHandler.required_model_params model)).

#[warnings="-inexact-float"]
Definition test_model_params : dict :=
  [("gender", VFloat 1.0); ("Type", VFloat 0.5501916796819537);
   ("SeniorCitizen", VFloat 0.0); ("Partner", VFloat 0.0);
   ("Dependents", VFloat 0.0); ("PaperlessBilling", VFloat 1.0);
   ("PaymentMethod", VFloat 0.2192247621752094);
   ("MonthlyCharges", VFloat 50.8); ("TotalCharges", VFloat 288.05);
   ("MultipleLines", VFloat 0.0);
   ("InternetService", VFloat 0.3437455629703251);
   ("OnlineSecurity", VFloat 0.0); ("OnlineBackup", VFloat 0.0);
   ("DeviceProtection", VFloat 0.0); ("TechSupport", VFloat 1.0);
   ("StreamingTV", VFloat 0.0); ("StreamingMovies", VFloat 0.0);
   ("days", VFloat 245.0); ("services", VFloat 2.0)].

Definition test_params : value :=
  VDict [("client_id", VStr "123"); ("model_params", VDict test_model_params)].

(** The [__main__] block: build the handler, handle the test request. *)
Definition main : result value :=
  handler <- init ;;
  FastApiHandler.handle rt (h_model handler) test_params.

End Loader.

End Startup.

(** ** Sample interpreters, models and requests *)

Module Samples.

(** [repr] on a string of letters and digits. *)
Definition repr_plain (s : string) : string :=
  String.append "'" (String.append s "'").

(** [str] of the codec error for a line whose 26 characters of prefix are
    followed by the surrogate U+D800. *)
Definition codec_d800 (text : string) : string :=
  "'utf-8' codec can't encode character '\ud800' in position 26: surrogates not allowed".

(** An interpreter whose [repr] can enter a thousand levels. *)
Definition python : Runtime := mkRuntime repr_plain codec_d800 998.



(** A regressor with unit weights: the score of a row is the sum of its
    float entries. *)
Definition sum_row (row : list value) : float :=
  fold_left (fun acc v => match v with
                          | VFloat x => (acc + x)%float
                          | _ => acc
                          end) row 0%float.

Definition sum_predict (rows : list (list value)) : result (list float) :=
  Ok (map sum_row rows).

Definition named_model : Model := mkModel (Some ["a"; "b"]) sum_predict.

Definition unnamed_model : Model := mkModel None sum_predict.







Definition ab_params : dict := [("b", VInt 2); ("a", VInt 1)].

Definition ab_request : dict :=
  [("client_id", VStr "123");
   ("model_params", VDict [("b", VFloat 2); ("a", VFloat 1)])].

Definition default_params : dict :=
  [("gender", VFloat 1); ("Type", VFloat 1); ("PaperlessBilling", VFloat 1);
   ("PaymentMethod", VFloat 1); ("MonthlyCharges", VFloat 1);
   ("TotalCharges", VFloat 1)].

Definition default_request : dict :=
  [("client_id", VStr "123"); ("model_params", VDict default_params)].

Definition extended_request : dict :=
  [("client_id", VStr "123");
   ("model_params", VDict (default_params ++ [("days", VFloat 245)]))].



Definition none_params_request : dict :=
  [("client_id", VStr "1"); ("model_params", VNone)].







(** A loader that finds the artifact, and one that does not. *)
Definition load_unnamed (path : string) : result Model := Ok unnamed_model.


Definition list_request : value := VList [VStr "client_id"; VStr "model_params"].

End Samples.
(** ** Facts about the Python fragment *)

Section PyFacts.

Lemma has_key_In (k : string) (d : dict) :
  has_key k d = true <-> In k (keys d).
Proof.
  unfold has_key. rewrite existsb_exists. split.
  - intros [x [Hin Heq]]. apply String.eqb_eq in Heq. now subst.
  - intros Hin. exists k. split; [assumption | apply String.eqb_refl].
Qed.

Lemma lookup_Some_In (k : string) (d : dict) (v : value) :
  lookup k d = Some v -> In k (keys d).
Proof.
  induction d as [| [k' v'] d IH]; simpl; [discriminate |].
  destruct (String.eqb k k') eqn:E.
  - apply String.eqb_eq in E. now left.
  - intros H. right. now apply IH.
Qed.

Lemma In_lookup_Some (k : string) (d : dict) :
  In k (keys d) -> exists v, lookup k d = Some v.
Proof.
  induction d as [| [k' v'] d IH]; simpl; [tauto |].
  intros [-> | Hin].
  - rewrite String.eqb_refl. now exists v'.
  - destruct (String.eqb k k'); [now exists v' | now apply IH].
Qed.

Lemma has_key_lookup (k : string) (d : dict) :
  has_key k d = true <-> exists v, lookup k d = Some v.
Proof.
  rewrite has_key_In. split.
  - apply In_lookup_Some.
  - intros [v Hv]. now apply lookup_Some_In with v.
Qed.

Lemma has_key_false_lookup (k : string) (d : dict) :
  has_key k d = false <-> lookup k d = None.
Proof.
  split; intros H.
  - destruct (lookup k d) eqn:E; [| reflexivity].
    assert (has_key k d = true) by (apply has_key_lookup; eauto). congruence.
  - destruct (has_key k d) eqn:E; [| reflexivity].
    apply has_key_lookup in E. destruct E as [v Hv]. congruence.
Qed.

Lemma allM_contains_dict (req : list string) (d : dict) :
  allM (fun p => contains p (VDict d)) req
  = Ok (forallb (fun p => has_key p d) req).
Proof.
  induction req as [| p ps IH]; simpl; [reflexivity |].
  destruct (has_key p d); [exact IH | reflexivity].
Qed.

Lemma filterM_missing_dict (req : list string) (d : dict) :
  filterM (fun p => b <- contains p (VDict d) ;; Ok (negb b)) req
  = Ok (filter (fun p => negb (has_key p d)) req).
Proof.
  induction req as [| p ps IH]; [reflexivity |].
  cbn [filterM contains bind filter]. cbn [filterM contains bind] in IH.
  now rewrite IH.
Qed.

Lemma mapM_getitem_dict (names : list string) (d : dict) :
  forallb (fun p => has_key p d) names = true ->
  exists vec, mapM (getitem (VDict d)) names = Ok vec
              /\ map Some vec = map (fun n => lookup n d) names.
Proof.
  induction names as [| n ns IH]; simpl.
  - intros _. now exists [].
  - rewrite andb_true_iff. intros [Hn Hns].
    apply has_key_lookup in Hn. destruct Hn as [v Hv].
    destruct (IH Hns) as [vec [Hvec Hmap]].
    exists (v :: vec). rewrite Hv, Hvec. simpl. now rewrite Hmap.
Qed.

Lemma mapM_getitem_Ok (names : list string) (d : dict) (vec : list value) :
  mapM (getitem (VDict d)) names = Ok vec ->
  map Some vec = map (fun n => lookup n d) names.
Proof.
  revert vec. induction names as [| n ns IH]; simpl; intros vec H.
  - now inversion H.
  - destruct (lookup n d) as [v |] eqn:Hv; simpl in H; [| discriminate].
    destruct (mapM (getitem (VDict d)) ns) as [vs | e] eqn:Hvs; simpl in H;
      [| discriminate].
    inversion H; subst. simpl. now rewrite (IH vs eq_refl).
Qed.

Lemma lookup_dict_set_same (k : string) (v : value) (d : dict) :
  lookup k (dict_set k v d) = Some v.
Proof.
  induction d as [| [k' v'] d IH]; simpl.
  - now rewrite String.eqb_refl.
  - destruct (String.eqb k k') eqn:E; simpl.
    + now rewrite String.eqb_refl.
    + now rewrite E.
Qed.

Lemma lookup_dict_set_other (k k' : string) (v : value) (d : dict) :
  k <> k' -> lookup k (dict_set k' v d) = lookup k d.
Proof.
  intros Hne. induction d as [| [k0 v0] d IH]; simpl.
  - apply String.eqb_neq in Hne. now rewrite Hne.
  - destruct (String.eqb k' k0) eqn:E; simpl.
    + apply String.eqb_eq in E. subst k0.
      apply String.eqb_neq in Hne. now rewrite Hne.
    + now rewrite IH.
Qed.

End PyFacts.

(** ** Dicts as insertion-ordered maps *)

Section DictFacts.

Lemma lookup_In (k : string) (v : value) (d : dict) :
  lookup k d = Some v -> In (k, v) d.
Proof.
  induction d as [| [k' v'] d IH]; cbn [lookup]; [discriminate |].
  destruct (String.eqb k k') eqn:E.
  - apply String.eqb_eq in E. intros H. inversion H. subst. now left.
  - intros H. right. now apply IH.
Qed.

Lemma In_lookup_NoDup (k : string) (v : value) (d : dict) :
  NoDup (keys d) -> In (k, v) d -> lookup k d = Some v.
Proof.
  induction d as [| [k' v'] d IH]; cbn [keys map fst lookup In];
    [tauto |].
  intros Hnd [Heq | Hin].
  - inversion Heq. subst. now rewrite String.eqb_refl.
  - inversion Hnd as [| ? ? Hnotin Hnd']. subst.
    destruct (String.eqb k k') eqn:E; [| now apply IH].
    apply String.eqb_eq in E. subst k'. exfalso. apply Hnotin.
    change k with (fst (k, v)). now apply in_map.
Qed.

Lemma lookup_Permutation (k : string) (d d' : dict) :
  NoDup (keys d) -> Permutation d d' -> lookup k d' = lookup k d.
Proof.
  intros Hnd Hp.
  assert (Hnd' : NoDup (keys d'))
    by (apply Permutation_NoDup with (keys d);
        [now apply Permutation_map | assumption]).
  destruct (lookup k d) as [v |] eqn:E.
  - apply In_lookup_NoDup; [assumption |].
    apply Permutation_in with d; [assumption | now apply lookup_In].
  - destruct (lookup k d') as [v' |] eqn:E'; [| reflexivity].
    apply lookup_In in E'. apply Permutation_sym in Hp.
    apply (Permutation_in _ Hp) in E'.
    apply (In_lookup_NoDup _ _ _ Hnd) in E'. congruence.
Qed.

Lemma mapM_getitem_ext (names : list string) (d d' : dict) :
  (forall k, In k names -> lookup k d' = lookup k d) ->
  mapM (getitem (VDict d')) names = mapM (getitem (VDict d)) names.
Proof.
  induction names as [| n ns IH]; intros H; [reflexivity |].
  cbn [mapM getitem]. rewrite (H n (or_introl eq_refl)).
  cbn [getitem] in IH. rewrite IH; [reflexivity |].
  intros k Hk. apply H. now right.
Qed.

Lemma mapM_getitem_entries (l d : dict) :
  (forall k v, In (k, v) l -> lookup k d = Some v) ->
  mapM (getitem (VDict d)) (keys l) = Ok (map snd l).
Proof.
  induction l as [| [k v] l IH]; intros H; [reflexivity |].
  cbn [keys map fst snd mapM getitem].
  rewrite (H k v (or_introl eq_refl)). cbn [bind].
  fold (keys l). cbn [getitem] in IH. rewrite IH; [reflexivity |].
  intros k' v' Hin. apply H. now right.
Qed.

Lemma mapM_getitem_first_missing (pre post : list string) (k : string)
    (d : dict) :
  (forall j, In j pre -> In j (keys d)) ->
  ~ In k (keys d) ->
  mapM (getitem (VDict d)) (pre ++ k :: post) = Raise (mkExn KeyError k).
Proof.
  intros Hpre Hk. induction pre as [| j pre IH]; cbn [app mapM getitem].
  - destruct (lookup k d) as [v |] eqn:E; [| reflexivity].
    exfalso. apply Hk. now apply lookup_Some_In with v.
  - destruct (In_lookup_Some j d (Hpre j (or_introl eq_refl))) as [v Hv].
    rewrite Hv. cbn [bind]. cbn [getitem] in IH. rewrite IH; [reflexivity |].
    intros i Hi. apply Hpre. now right.
Qed.

End DictFacts.

(** ** What printing can raise *)

Section PrintFacts.

Lemma iterM_Ok {A} (f : A -> result unit) (l : list A) :
  iterM f l = Ok tt <-> forall x, In x l -> f x = Ok tt.
Proof.
  induction l as [| a l IH]; cbn [iterM In].
  - split; [tauto | reflexivity].
  - destruct (f a) as [[] | e] eqn:E; cbn [bind].
    + rewrite IH. split.
      * intros H x [<- | Hin]; [exact E | now apply H].
      * intros H x Hin. apply H. now right.
    + split; [discriminate |].
      intros H. specialize (H a (or_introl eq_refl)). congruence.
Qed.

Lemma iterM_Raise {A} (f : A -> result unit) (l : list A) (e : exn) :
  iterM f l = Raise e -> exists x, In x l /\ f x = Raise e.
Proof.
  induction l as [| a l IH]; cbn [iterM]; [discriminate |].
  destruct (f a) as [[] | e'] eqn:E; cbn [bind].
  - intros H. destruct (IH H) as [x [Hin Hx]]. exists x. split;
      [now right | exact Hx].
  - intros H. inversion H; subst. exists a. split; [now left | exact E].
Qed.

Lemma iterM_outcome {A} (f : A -> result unit) (l : list A) :
  iterM f l = Ok tt \/ exists e, iterM f l = Raise e.
Proof. destruct (iterM f l) as [[] | e]; eauto. Qed.

Lemma repr_check_mono (d : nat) (v : value) :
  repr_check d v = Ok tt -> repr_check (S d) v = Ok tt.
Proof.
  revert v. induction d as [| d IH]; intros v H.
  - destruct v; cbn in H |- *; try exact H; discriminate.
  - destruct v as [| | | | | l | es]; try exact H.
    + cbn [repr_check] in H |- *. rewrite iterM_Ok in H |- *.
      intros x Hx. now apply IH, H.
    + cbn [repr_check] in H |- *. rewrite iterM_Ok in H |- *.
      intros x Hx. now apply IH, H.
Qed.

Lemma repr_check_exn (d : nat) (v : value) (e : exn) :
  repr_check d v = Raise e -> e = recursion_exn \/ e = digits_exn.
Proof.
  revert v. induction d as [| d IH]; intros v H.
  - destruct v; cbn in H; try discriminate.
    + destruct (int_too_long n); inversion H; now right.
    + inversion H. now left.
    + inversion H. now left.
  - destruct v as [| | n | | | l | es]; cbn [repr_check] in H;
      try discriminate.
    + destruct (int_too_long n); inversion H; now right.
    + apply iterM_Raise in H. destruct H as [x [_ Hx]]. now apply IH in Hx.
    + apply iterM_Raise in H. destruct H as [x [_ Hx]]. now apply IH in Hx.
Qed.

Lemma repr_check_entry (d : nat) (es : dict) (k : string) (v : value) :
  repr_check (S d) (VDict es) = Ok tt -> In (k, v) es ->
  repr_check d v = Ok tt.
Proof.
  cbn [repr_check]. rewrite iterM_Ok. intros H Hin.
  exact (H (k, v) Hin).
Qed.

Lemma repr_check_item (d : nat) (l : list value) (v : value) :
  repr_check (S d) (VList l) = Ok tt -> In v l -> repr_check d v = Ok tt.
Proof. cbn [repr_check]. rewrite iterM_Ok. intros H Hin. now apply H. Qed.

Lemma repr_check_list (d : nat) (l : list value) :
  (forall v, In v l -> repr_check d v = Ok tt) ->
  repr_check (S d) (VList l) = Ok tt.
Proof. cbn [repr_check]. now rewrite iterM_Ok. Qed.

Lemma repr_check_dict (d : nat) (es : dict) :
  (forall k v, In (k, v) es -> repr_check d v = Ok tt) ->
  repr_check (S d) (VDict es) = Ok tt.
Proof.
  cbn [repr_check]. rewrite iterM_Ok. intros H [k v] Hin.
  exact (H k v Hin).
Qed.

Lemma repr_check_names (d : nat) (l : list string) :
  repr_check (S d) (VList (map VStr l)) = Ok tt.
Proof.
  apply repr_check_list. intros v Hin. apply in_map_iff in Hin.
  destruct Hin as [s [<- _]]. now destruct d.
Qed.

Lemma repr_check_dict_Permutation (d : nat) (es es' : dict) :
  Permutation es es' ->
  repr_check d (VDict es) = Ok tt -> repr_check d (VDict es') = Ok tt.
Proof.
  intros Hp. destruct d as [| d]; [discriminate |].
  cbn [repr_check]. rewrite !iterM_Ok. intros H x Hx. apply H.
  apply Permutation_in with es'; [now apply Permutation_sym | exact Hx].
Qed.

Lemma print_value_repr (d : nat) (prefix : string) (v : value) :
  isinstance_str v = false -> print_value d prefix v = repr_check d v.
Proof. now destruct v. Qed.

Lemma print_value_exn (d : nat) (prefix : string) (v : value) (e : exn) :
  print_value d prefix v = Raise e ->
  e = recursion_exn \/ e = digits_exn \/ exn_cls e = UnicodeEncodeError.
Proof.
  intros H.
  assert (Hr : repr_check d v = Raise e ->
               e = recursion_exn \/ e = digits_exn
               \/ exn_cls e = UnicodeEncodeError).
  { intros Hr. apply repr_check_exn in Hr. tauto. }
  destruct v; try (apply Hr; exact H).
  cbn [print_value] in H. unfold write in H.
  destruct (has_surrogate (prefix ++ s)); inversion H. now right; right.
Qed.

Lemma print_value_reportable (d : nat) (prefix : string) (v : value)
    (e : exn) :
  print_value d prefix v = Raise e -> reportable e.
Proof.
  intros H. apply print_value_exn in H.
  destruct H as [-> | [-> | H]]; [reflexivity | reflexivity |].
  unfold reportable, print_exn. now rewrite H.
Qed.

Lemma contains_reportable (k : string) (c : value) (e : exn) :
  contains k c = Raise e -> reportable e.
Proof.
  destruct c; cbn; intros H; inversion H; reflexivity.
Qed.

Lemma getitem_reportable (c : value) (k : string) (e : exn) :
  getitem c k = Raise e -> reportable e.
Proof.
  destruct c; cbn; intros H; try (inversion H; reflexivity).
  destruct (lookup k entries); inversion H. reflexivity.
Qed.

Lemma iter_reportable (c : value) (e : exn) :
  iter c = Raise e -> reportable e.
Proof. destruct c; cbn; intros H; inversion H; reflexivity. Qed.

Lemma values_reportable (c : value) (e : exn) :
  values c = Raise e -> reportable e.
Proof. destruct c; cbn; intros H; inversion H; reflexivity. Qed.

Lemma first_reportable (a : list float) (e : exn) :
  first a = Raise e -> reportable e.
Proof. destruct a; cbn; intros H; inversion H; reflexivity. Qed.

End PrintFacts.

(** ** Which exceptions a computation can raise *)

Section RaisesOnly.

Context (P : exn -> Prop).

Lemma raises_only_Ok {A} (a : A) : raises_only P (Ok a).
Proof. intros e H. discriminate. Qed.

Lemma raises_only_bind {A B} (c : result A) (k : A -> result B) :
  raises_only P c ->
  (forall a, c = Ok a -> raises_only P (k a)) ->
  raises_only P (bind c k).
Proof.
  intros Hc Hk e H. destruct c as [a | e']; cbn [bind] in H.
  - exact (Hk a eq_refl e H).
  - inversion H; subst. now apply Hc.
Qed.

Lemma raises_only_filterM {A} (p : A -> result bool) (l : list A) :
  (forall x, raises_only P (p x)) -> raises_only P (filterM p l).
Proof.
  intros Hp. induction l as [| x xs IH]; cbn [filterM].
  - intros e H. discriminate.
  - apply raises_only_bind; [apply Hp | intros b _].
    apply raises_only_bind; [exact IH | intros ys _ e H; discriminate].
Qed.

Lemma raises_only_allM {A} (p : A -> result bool) (l : list A) :
  (forall x, raises_only P (p x)) -> raises_only P (allM p l).
Proof.
  intros Hp. induction l as [| x xs IH]; cbn [allM].
  - intros e H. discriminate.
  - apply raises_only_bind; [apply Hp | intros b _].
    destruct b; [exact IH | intros e H; discriminate].
Qed.

Lemma raises_only_mapM {A B} (f : A -> result B) (l : list A) :
  (forall x, raises_only P (f x)) -> raises_only P (mapM f l).
Proof.
  intros Hf. induction l as [| x xs IH]; cbn [mapM].
  - intros e H. discriminate.
  - apply raises_only_bind; [apply Hf | intros y _].
    apply raises_only_bind; [exact IH | intros ys _ e H; discriminate].
Qed.

End RaisesOnly.


Lemma raises_print_value (d : nat) (prefix : string) (v : value) :
  raises_only reportable (print_value d prefix v).
Proof. intros e. apply print_value_reportable. Qed.

Lemma raises_contains (k : string) (c : value) :
  raises_only reportable (contains k c).
Proof. intros e. apply contains_reportable. Qed.

Lemma raises_getitem (c : value) (k : string) :
  raises_only reportable (getitem c k).
Proof. intros e. apply getitem_reportable. Qed.

Lemma raises_iter (c : value) : raises_only reportable (iter c).
Proof. intros e. apply iter_reportable. Qed.

Lemma raises_values (c : value) : raises_only reportable (values c).
Proof. intros e. apply values_reportable. Qed.

Lemma raises_first (a : list float) : raises_only reportable (first a).
Proof. intros e. apply first_reportable. Qed.

Create HintDb raises.

#[local] Hint Resolve raises_print_value raises_contains raises_getitem
  raises_iter raises_values raises_first : raises.

(** Splits a computation along its binds and branches, closing the leaves
    with the facts about the primitives. *)
Ltac raises_step :=
  first
    [ apply raises_only_Ok
    | solve [auto with raises]
    | apply raises_only_bind; [| intros ? _]
    | apply raises_only_filterM; intros ?
    | apply raises_only_allM; intros ?
    | apply raises_only_mapM; intros ?
    | match goal with
      | |- raises_only _ (if ?b then _ else _) => destruct b
      | |- raises_only _ (match ?l with [] => _ | _ :: _ => _ end) =>
          destruct l
      end ].

Ltac raises := repeat raises_step.

(** ** The two checks and the validator *)

Import FastApiHandler.

Section HandlerFacts.

Variable rt : Runtime.
Variable model : Model.

Lemma reprs_entry (d : dict) (k : string) (v : value) :
  reprs rt (VDict d) -> lookup k d = Some v -> reprs rt v.
Proof.
  unfold reprs, repr_depth. intros H Hk.
  apply repr_check_mono. apply (repr_check_entry _ d k v H).
  now apply lookup_In.
Qed.

Lemma print_value_reprs (prefix : string) (v : value) :
  isinstance_str v = false -> reprs rt v ->
  print_value (repr_depth rt) prefix v = Ok tt.
Proof. intros Hs H. now rewrite print_value_repr. Qed.

Lemma print_names (prefix : string) (l : list string) :
  print_value (repr_depth rt) prefix (VList (map VStr l)) = Ok tt.
Proof. apply repr_check_names. Qed.

Lemma print_strs (prefix : string) (l : list value) :
  (forall v, In v l -> isinstance_str v = true) ->
  print_value (repr_depth rt) prefix (VList l) = Ok tt.
Proof.
  intros H. apply repr_check_list. intros v Hin.
  specialize (H v Hin). destruct v; try discriminate.
  now destruct (spare_depth rt).
Qed.

Lemma check_required_query_params_dict (d : dict) :
  check_required_query_params rt (VDict d)
  = (exec print_value (repr_depth rt) "Query params received: " (VDict d) ;;
     Ok (shape_ok d)).
Proof.
  unfold check_required_query_params, shape_ok.
  destruct (print_value (repr_depth rt) "Query params received: " (VDict d))
    as [[] | e]; cbn [bind]; [| reflexivity].
  cbn [contains bind].
  destruct (has_key "client_id" d) eqn:Hid; cbn [negb bind].
  - destruct (has_key "model_params" d) eqn:Hmp; cbn [negb bind].
    + apply has_key_lookup in Hid, Hmp.
      destruct Hid as [c Hc], Hmp as [mp Hmp].
      cbn [getitem]. rewrite Hc, Hmp. cbn [bind].
      destruct c; cbn; try reflexivity; destruct mp; reflexivity.
    + apply has_key_false_lookup in Hmp. rewrite Hmp.
      destruct (lookup "client_id" d) as [[]|]; reflexivity.
  - apply has_key_false_lookup in Hid. now rewrite Hid.
Qed.

Lemma check_required_query_params_true (q : value) :
  check_required_query_params rt q = Ok true ->
  exists d c mp, q = VDict d /\ lookup "client_id" d = Some (VStr c)
                 /\ lookup "model_params" d = Some (VDict mp)
                 /\ reprs rt (VDict d).
Proof.
  destruct q as [| b | n | x | s | l | d].
  1-4: unfold check_required_query_params;
       match goal with
       | |- context [print_value ?a ?b ?c] => destruct (print_value a b c)
       end; cbn; discriminate.
  - unfold check_required_query_params.
    destruct (print_value (repr_depth rt) "Query params received: " (VStr s));
      cbn [bind contains]; [| discriminate].
    destruct (str_contains "client_id" s); cbn [negb bind];
      [| discriminate].
    destruct (str_contains "model_params" s); cbn; discriminate.
  - unfold check_required_query_params.
    destruct (print_value (repr_depth rt) "Query params received: " (VList l));
      cbn [bind contains]; [| discriminate].
    destruct (existsb (eq_str "client_id") l); cbn [negb bind];
      [| discriminate].
    destruct (existsb (eq_str "model_params") l); cbn; discriminate.
  - rewrite check_required_query_params_dict.
    destruct (print_value (repr_depth rt) "Query params received: " (VDict d))
      as [[] | e] eqn:Hp; cbn [bind]; [| discriminate].
    unfold shape_ok. intros H. exists d.
    destruct (lookup "client_id" d) as [[| | | | c | |] |]; try discriminate.
    destruct (lookup "model_params" d) as [[| | | | | | mp] |];
      try discriminate.
    exists c, mp. repeat split. exact Hp.
Qed.

Lemma check_required_model_params_dict (d : dict) :
  check_required_model_params rt model (VDict d)
  = (exec print_value (repr_depth rt) "Model params received: " (VDict d) ;;
     Ok (forallb (fun p => has_key p d) (required_model_params model))).
Proof.
  unfold check_required_model_params.
  destruct (print_value (repr_depth rt) "Model params received: " (VDict d))
    as [[] | e]; cbn [bind]; [| reflexivity].
  rewrite filterM_missing_dict. cbn [bind iter].
  replace (match filter (fun p => negb (has_key p d))
                   (required_model_params model) with
           | [] => Ok tt
           | _ :: _ => print_value (repr_depth rt) "Missing required params: "
                         (VList (map VStr
                            (filter (fun p => negb (has_key p d))
                               (required_model_params model))))
           end) with (@Ok unit tt)
    by (rewrite print_names; now destruct (filter _ _)).
  cbn [bind].
  match goal with
  | |- context [match ?l with [] => Ok tt | _ :: _ => print_value ?a ?b _ end] =>
      replace (match l with [] => Ok tt | _ :: _ => print_value a b (VList l) end)
        with (@Ok unit tt)
  end.
  - cbn [bind]. apply allM_contains_dict.
  - rewrite print_strs; [now destruct (filter _ _) |].
    intros v Hin. apply filter_In in Hin. destruct Hin as [Hin _].
    apply in_map_iff in Hin. now destruct Hin as [s [<- _]].
Qed.

Lemma validate_params_dict (d : dict) :
  validate_params rt model (VDict d)
  = (exec print_value (repr_depth rt) "Query params received: " (VDict d) ;;
     Ok (shape_ok d
         && match lookup "model_params" d with
            | Some (VDict mp) =>
                forallb (fun p => has_key p mp) (required_model_params model)
            | _ => false
            end)).
Proof.
  unfold validate_params. rewrite check_required_query_params_dict.
  destruct (print_value (repr_depth rt) "Query params received: " (VDict d))
    as [[] | e] eqn:Hp; cbn [bind]; [| reflexivity].
  unfold shape_ok.
  destruct (lookup "client_id" d) as [[| | | | c | |] |]; try reflexivity.
  cbn [getitem].
  destruct (lookup "model_params" d) as [[| | | | | | mp] |] eqn:Hmp;
    try reflexivity.
  cbn [negb bind]. rewrite check_required_model_params_dict.
  rewrite print_value_reprs;
    [| reflexivity | now apply (reprs_entry d "model_params")].
  cbn [bind]. now destruct (forallb _ _).
Qed.

Lemma validate_params_dict_reprs (d : dict) :
  reprs rt (VDict d) ->
  validate_params rt model (VDict d)
  = Ok (shape_ok d
        && match lookup "model_params" d with
           | Some (VDict mp) =>
               forallb (fun p => has_key p mp) (required_model_params model)
           | _ => false
           end).
Proof.
  intros H. rewrite validate_params_dict.
  now rewrite print_value_reprs.
Qed.

Lemma validate_params_true (p : value) :
  validate_params rt model p = Ok true ->
  exists d c mp,
    p = VDict d /\ lookup "client_id" d = Some (VStr c)
    /\ lookup "model_params" d = Some (VDict mp)
    /\ forallb (fun n => has_key n mp) (required_model_params model) = true
    /\ reprs rt (VDict d).
Proof.
  intros H.
  assert (Hq : check_required_query_params rt p = Ok true).
  { unfold validate_params in H.
    destruct (check_required_query_params rt p) as [[|] | e]; cbn in H;
      [reflexivity | discriminate | discriminate]. }
  destruct (check_required_query_params_true p Hq)
    as (d & c & mp & -> & Hc & Hmp & Hr).
  exists d, c, mp. repeat split; try assumption.
  rewrite (validate_params_dict_reprs d Hr) in H. unfold shape_ok in H.
  rewrite Hc, Hmp in H. cbn in H. now inversion H.
Qed.

Lemma validate_params_refines (p : value) :
  validate_params rt model p = validate_spec rt model p.
Proof.
  unfold validate_params, validate_spec.
  destruct (check_required_query_params rt p) as [[|] | e]; cbn [bind negb];
    try reflexivity.
  destruct (getitem p "model_params") as [mp | e]; cbn [bind];
    [| reflexivity].
  now destruct (check_required_model_params rt model mp) as [[|] | e].
Qed.

Lemma forallb_has_key_In (req : list string) (d : dict) :
  forallb (fun p => has_key p d) req = true
  <-> forall n, In n req -> In n (keys d).
Proof.
  rewrite forallb_forall. split; intros H n Hn.
  - now apply has_key_In, H.
  - now apply has_key_In, H.
Qed.

Lemma required_model_params_nonempty : required_model_params model <> [].
Proof.
  unfold required_model_params.
  destruct (feature_names model) as [[| n ns] |]; discriminate.
Qed.

Lemma validate_params_raises (p : value) :
  raises_only reportable (validate_params rt model p).
Proof.
  unfold validate_params, check_required_query_params,
    check_required_model_params. raises.
Qed.

End HandlerFacts.

(** ** The handler *)

Section HandleFacts.

Variable rt : Runtime.
Variable model : Model.

Lemma handle_unfold (p : value) :
  handle rt model p
  = try_except (handle_try rt model p)
      (fun e =>
         exec print_exn "Error while handling request: " e ;;
         Ok (VDict [("Error", VStr (str_exn rt e))])).
Proof. reflexivity. Qed.

Lemma handle_of_ok (p r : value) :
  handle_try rt model p = Ok r -> handle rt model p = Ok r.
Proof. intros H. rewrite handle_unfold. now rewrite H. Qed.

Lemma handle_of_raise (p : value) (e : exn) :
  handle_try rt model p = Raise e ->
  reportable e ->
  handle rt model p = Ok (VDict [("Error", VStr (str_exn rt e))]).
Proof.
  intros H Hr. rewrite handle_unfold, H. cbn [try_except].
  unfold reportable in Hr. now rewrite Hr.
Qed.


Lemma handle_try_rejected (p : value) :
  validate_params rt model p = Ok false ->
  handle_try rt model p = Ok (VDict [("Error", VStr "Problem with parameters")]).
Proof. intros H. unfold handle_try. now rewrite H. Qed.

Lemma handle_rejected (p : value) :
  validate_params rt model p = Ok false ->
  handle rt model p = Ok (VDict [("Error", VStr "Problem with parameters")]).
Proof. intros H. now apply handle_of_ok, handle_try_rejected. Qed.

Lemma handle_validate_raises (p : value) (e : exn) :
  validate_params rt model p = Raise e ->
  handle rt model p = Ok (VDict [("Error", VStr (str_exn rt e))]).
Proof.
  intros H. apply handle_of_raise.
  - unfold handle_try. now rewrite H.
  - now apply (validate_params_raises rt model p).
Qed.

Lemma mapM_getitem_values (names : list string) (d : dict)
    (row : list value) :
  mapM (getitem (VDict d)) names = Ok row ->
  forall v, In v row -> exists k, In (k, v) d.
Proof.
  revert row. induction names as [| n ns IH]; cbn [mapM]; intros row H.
  - inversion H. intros v [].
  - cbn [getitem] in H. destruct (lookup n d) as [x |] eqn:Hx;
      cbn [bind] in H; [| discriminate].
    destruct (mapM (getitem (VDict d)) ns) as [xs | e]; cbn [bind] in H;
      [| discriminate].
    inversion H; subst row. intros v [<- | Hin].
    + exists n. now apply lookup_In.
    + now apply (IH xs eq_refl).
Qed.

Lemma input_data_values (mp : dict) (row : list value) :
  input_data model (VDict mp) = Ok row ->
  forall v, In v row -> exists k, In (k, v) mp.
Proof.
  unfold input_data.
  destruct (feature_names model) as [[| n ns] |].
  - cbn [values]. intros H v Hin. inversion H; subst row.
    apply in_map_iff in Hin. destruct Hin as [[k x] [<- Hin]]. now exists k.
  - apply mapM_getitem_values.
  - cbn [values]. intros H v Hin. inversion H; subst row.
    apply in_map_iff in Hin. destruct Hin as [[k x] [<- Hin]]. now exists k.
Qed.

Lemma credit_rating_predict_reprs (mp : dict) :
  reprs rt (VDict mp) ->
  credit_rating_predict rt model (VDict mp)
  = (row <- input_data model (VDict mp) ;;
     out <- predict model [row] ;;
     first out).
Proof.
  intros Hr. unfold credit_rating_predict.
  rewrite print_value_reprs by (reflexivity || assumption). cbn [bind].
  destruct (input_data model (VDict mp)) as [row | e] eqn:Hrow; cbn [bind];
    [| reflexivity].
  rewrite print_value_reprs; [reflexivity | reflexivity |].
  apply repr_check_list. intros v Hin.
  destruct (input_data_values mp row Hrow v Hin) as [k Hk].
  exact (repr_check_entry _ mp k v Hr Hk).
Qed.

Lemma handle_try_validated (d mp : dict) (c : string) :
  validate_params rt model (VDict d) = Ok true ->
  lookup "client_id" d = Some (VStr c) ->
  lookup "model_params" d = Some (VDict mp) ->
  reprs rt (VDict mp)
  /\ handle_try rt model (VDict d)
     = (exec write ("Predicting for client_id: " ++ c) ;;
        y <- credit_rating_predict rt model (VDict mp) ;;
        Ok (VDict [("client_id", VStr c);
                   ("predicted_credit_rating", VFloat (to_float y))])).
Proof.
  intros Hv Hc Hmp.
  destruct (validate_params_true rt model _ Hv)
    as (d0 & _ & _ & Heq & _ & _ & _ & Hr).
  inversion Heq; subst d0.
  assert (Hrmp : reprs rt (VDict mp))
    by now apply (reprs_entry rt d "model_params").
  split; [exact Hrmp |].
  unfold handle_try. rewrite Hv. cbn [negb bind getitem].
  rewrite Hmp, Hc. cbn [bind print_value].
  destruct (write ("Predicting for client_id: " ++ c)) as [[] | e];
    cbn [bind]; [| reflexivity].
  now rewrite Hrmp.
Qed.




Lemma input_data_named (n : string) (ns : list string) (mp : dict) :
  feature_names model = Some (n :: ns) ->
  forallb (fun k => has_key k mp) (n :: ns) = true ->
  exists vec, input_data model (VDict mp) = Ok vec
              /\ map Some vec = map (fun k => lookup k mp) (n :: ns).
Proof.
  intros Hf Hall. unfold input_data. rewrite Hf.
  now apply mapM_getitem_dict.
Qed.

Lemma lookup_without_keys (extras : list string) (k : string) (d : dict) :
  ~ In k extras -> lookup k (without_keys extras d) = lookup k d.
Proof.
  intros Hk. induction d as [| [k' v'] d IH]; [reflexivity |].
  cbn [without_keys filter fst lookup].
  destruct (existsb (String.eqb k') extras) eqn:E; cbn [negb].
  - fold (without_keys extras d). rewrite IH.
    destruct (String.eqb k k') eqn:Ek; [| reflexivity].
    apply String.eqb_eq in Ek. subst k'.
    apply existsb_exists in E. destruct E as [x [Hx Hkx]].
    apply String.eqb_eq in Hkx. subst x. contradiction.
  - fold (without_keys extras d). cbn [lookup]. now rewrite IH.
Qed.

Lemma has_key_without_keys (extras : list string) (k : string) (d : dict) :
  ~ In k extras -> has_key k (without_keys extras d) = has_key k d.
Proof.
  intros Hk. apply eq_true_iff_eq. rewrite !has_key_lookup.
  now rewrite lookup_without_keys.
Qed.

End HandleFacts.

(** ** Properties of the validator *)

Section ValidatorProperties.

Variable rt : Runtime.
Variable model : Model.



(** C6: [validate_params] is the short-circuit conjunction of the two
    checks: a failed shape check gives false at once, also where the
    completeness check would raise; a passed shape check gives the result
    of the completeness check on the request's [model_params]. *)
Theorem validate_params_short_circuit (p : value) :
  validate_params rt model p = validate_spec rt model p
  /\ (check_required_query_params rt p = Ok false ->
      validate_params rt model p = Ok false)
  /\ (check_required_query_params rt p = Ok true ->
      exists mp, getitem p "model_params" = Ok mp
        /\ validate_params rt model p
           = check_required_model_params rt model mp)
  /\ (exists e, check_required_model_params rt model VNone = Raise e)
  /\ validate_params rt model (VDict Samples.none_params_request) = Ok false.
Proof.
  split; [apply validate_params_refines |]. split; [| split; [| split]].
  - intros H. unfold validate_params. now rewrite H.
  - intros H.
    destruct (check_required_query_params_true rt p H)
      as (d & c & mp & -> & Hc & Hmp & _).
    exists (VDict mp). cbn [getitem]. rewrite Hmp. split; [reflexivity |].
    rewrite validate_params_refines. unfold validate_spec.
    rewrite H. cbn [bind getitem]. now rewrite Hmp.
  - unfold check_required_model_params.
    pose proof (required_model_params_nonempty model) as Hne.
    destruct (required_model_params model) as [| n ns]; [congruence |].
    unfold repr_depth. cbn. eauto.
  - now rewrite validate_params_dict.
Qed.

End ValidatorProperties.





Lemma validate_params_short_circuit_witness :
  check_required_query_params Samples.python
    (VDict Samples.none_params_request) = Ok false
  /\ validate_params Samples.python Samples.named_model
       (VDict Samples.none_params_request)
     = Ok false.
Proof.
  split; [reflexivity |].
  apply (proj1 (proj2 (validate_params_short_circuit Samples.python
                         Samples.named_model
                         (VDict Samples.none_params_request)))).
  reflexivity.
Defined.

(** ** Properties of the handler *)

Section HandleProperties.

Variable rt : Runtime.
Variable model : Model.



(** C3: with feature names exposed, the feature vector holds, position by
    position, the value found in [model_params] under the schema name of
    that position; schema [["a","b"]] and [{"b":2,"a":1}] give [[1,2]];
    without feature names the vector is the values of [model_params] in
    iteration order. *)
Theorem input_data_follows_schema_order (mp : dict) :
  (forall (n : string) (ns : list string),
      feature_names model = Some (n :: ns) ->
      (forall k, In k (n :: ns) -> In k (keys mp)) ->
      exists vec, input_data model (VDict mp) = Ok vec
        /\ length vec = length (n :: ns)
        /\ forall i k, nth_error (n :: ns) i = Some k ->
                       nth_error vec i = lookup k mp)
  /\ (feature_names model = None \/ feature_names model = Some [] ->
      input_data model (VDict mp) = Ok (map snd mp))
  /\ input_data Samples.named_model (VDict Samples.ab_params)
     = Ok [VInt 1; VInt 2].
Proof.
  split; [| split].
  - intros n ns Hf Hall.
    apply forallb_has_key_In in Hall.
    destruct (input_data_named model n ns mp Hf Hall) as [vec [Hvec Hmap]].
    exists vec. split; [exact Hvec | split].
    + rewrite <- (length_map Some vec), Hmap. apply length_map.
    + intros i k Hk.
      assert (H : nth_error (map Some vec) i
                  = nth_error (map (fun k => lookup k mp) (n :: ns)) i)
        by now rewrite Hmap.
      rewrite !nth_error_map, Hk in H. cbn [option_map] in H.
      destruct (nth_error vec i) as [v |]; cbn [option_map] in H;
        [now inversion H | discriminate].
  - unfold input_data. intros [-> | ->]; reflexivity.
  - reflexivity.
Qed.


(** C8, amended: with feature names exposed, entries of [model_params]
    under keys outside the required schema change nothing as long as the
    request can be printed with them: when the request without them passes
    validation, [handle] returns the same output with them. *)
Theorem extra_keys_unused_with_feature_names
    (n : string) (ns : list string) (d mp : dict) (extras : list string) :
  feature_names model = Some (n :: ns) ->
  lookup "model_params" d = Some (VDict mp) ->
  (forall k, In k extras -> ~ In k (required_model_params model)) ->
  reprs rt (VDict d) ->
  validate_params rt model
    (VDict (dict_set "model_params" (VDict (without_keys extras mp)) d))
  = Ok true ->
  handle rt model (VDict d)
  = handle rt model
      (VDict (dict_set "model_params" (VDict (without_keys extras mp)) d)).
Proof.
  intros Hf Hmp Hdis Hr Hv.
  set (mp0 := without_keys extras mp) in *.
  set (d0 := dict_set "model_params" (VDict mp0) d) in *.
  assert (Hreq : required_model_params model = n :: ns)
    by (unfold required_model_params; now rewrite Hf).
  assert (Hmp0 : lookup "model_params" d0 = Some (VDict mp0))
    by apply lookup_dict_set_same.
  assert (Hcid : lookup "client_id" d0 = lookup "client_id" d)
    by (apply lookup_dict_set_other; discriminate).
  destruct (validate_params_true rt model _ Hv)
    as (d1 & c & mp1 & Heq & Hc0 & Hmp1 & Hall0 & _).
  inversion Heq; subst d1. rewrite Hmp0 in Hmp1.
  inversion Hmp1; subst mp1. rewrite Hcid in Hc0.
  assert (Hall : forallb (fun p => has_key p mp) (required_model_params model)
                 = true).
  { rewrite forallb_forall in Hall0 |- *. intros k Hk.
    rewrite <- (has_key_without_keys extras k mp); [now apply Hall0 |].
    intros Hin. exact (Hdis k Hin Hk). }
  assert (Hvd : validate_params rt model (VDict d) = Ok true).
  { rewrite (validate_params_dict_reprs rt model d Hr). unfold shape_ok.
    now rewrite Hc0, Hmp, Hall. }
  rewrite <- Hcid in Hc0.
  destruct (handle_try_validated rt model d0 mp0 c Hv Hc0 Hmp0) as [Hr0 Ht0].
  rewrite Hcid in Hc0.
  destruct (handle_try_validated rt model d mp c Hvd Hc0 Hmp) as [Hrm Ht].
  rewrite !handle_unfold, Ht, Ht0.
  rewrite (credit_rating_predict_reprs rt model mp Hrm).
  rewrite (credit_rating_predict_reprs rt model mp0 Hr0).
  unfold input_data. rewrite Hf.
  rewrite (mapM_getitem_ext (n :: ns) mp mp0); [reflexivity |].
  intros k Hk. unfold mp0. apply lookup_without_keys.
  intros Hin. apply (Hdis k Hin). now rewrite Hreq.
Qed.

(** C9: with feature names exposed, a request that passed validation
    carries a dict under [model_params] in which every lookup of the
    feature-vector assembly succeeds, so the assembly returns a vector and
    raises no [KeyError]. *)
Theorem validated_lookups_succeed
    (n : string) (ns : list string) (p : value) :
  feature_names model = Some (n :: ns) ->
  validate_params rt model p = Ok true ->
  required_model_params model = n :: ns
  /\ exists mp vec,
       getitem p "model_params" = Ok (VDict mp)
       /\ (forall f, In f (n :: ns) ->
                     exists v, getitem (VDict mp) f = Ok v)
       /\ input_data model (VDict mp) = Ok vec
       /\ length vec = length (n :: ns).
Proof.
  intros Hf Hv.
  assert (Hreq : required_model_params model = n :: ns)
    by (unfold required_model_params; now rewrite Hf).
  split; [exact Hreq |].
  destruct (validate_params_true rt model p Hv)
    as (d & c & mp & -> & Hc & Hmp & Hall & _).
  rewrite Hreq in Hall.
  destruct (input_data_named model n ns mp Hf Hall) as [vec [Hvec Hmap]].
  exists mp, vec. split; [cbn [getitem]; now rewrite Hmp | split; [| split]].
  - intros f Hin. rewrite forallb_forall in Hall.
    destruct (proj1 (has_key_lookup f mp) (Hall f Hin)) as [v Hv'].
    exists v. cbn [getitem]. now rewrite Hv'.
  - exact Hvec.
  - rewrite <- (length_map Some vec), Hmap. apply length_map.
Qed.


End HandleProperties.




(** C8: without feature names the vector is every value of
    [model_params], so an entry under a key outside the required schema
    changes the output. *)
Lemma extra_key_changes_fallback_output :
  lookup "model_params" Samples.extended_request
  = Some (VDict (Samples.default_params ++ [("days", VFloat 245)]))
  /\ dict_set "model_params"
       (VDict (without_keys ["days"]
                 (Samples.default_params ++ [("days", VFloat 245)])))
       Samples.extended_request
     = Samples.default_request
  /\ (forall k, In k ["days"] ->
                ~ In k (required_model_params Samples.unnamed_model))
  /\ validate_params Samples.python Samples.unnamed_model
       (VDict Samples.default_request)
     = Ok true
  /\ handle Samples.python Samples.unnamed_model
       (VDict Samples.default_request)
     = Ok (VDict [("client_id", VStr "123");
                  ("predicted_credit_rating", VFloat 6)])
  /\ handle Samples.python Samples.unnamed_model
       (VDict Samples.extended_request)
     = Ok (VDict [("client_id", VStr "123");
                  ("predicted_credit_rating", VFloat 251)])
  /\ handle Samples.python Samples.unnamed_model
       (VDict Samples.extended_request)
     <> handle Samples.python Samples.unnamed_model
          (VDict Samples.default_request).
Proof.
  split; [reflexivity | split; [reflexivity | split]].
  - intros k [<- | []]. cbn. intros H.
    repeat (destruct H as [H | H]; [discriminate |]). exact H.
  - split; [vm_compute; reflexivity |].
    split; [vm_compute; reflexivity |].
    split; [vm_compute; reflexivity |].
    vm_compute. intros H. inversion H.
Qed.




Lemma input_data_follows_schema_order_witness :
  exists vec, input_data Samples.named_model (VDict Samples.ab_params) = Ok vec
    /\ length vec = 2
    /\ forall i k, nth_error ["a"; "b"] i = Some k ->
                   nth_error vec i = lookup k Samples.ab_params.
Proof.
  apply (proj1 (input_data_follows_schema_order Samples.named_model
                  Samples.ab_params) "a" ["b"]).
  - reflexivity.
  - cbn. intros k [<- | [<- | []]]; auto.
Defined.


Lemma extra_keys_unused_with_feature_names_witness :
  handle Samples.python Samples.named_model
    (VDict [("client_id", VStr "123");
            ("model_params",
             VDict [("b", VFloat 2); ("days", VFloat 245); ("a", VFloat 1)])])
  = handle Samples.python Samples.named_model (VDict Samples.ab_request).
Proof.
  apply (extra_keys_unused_with_feature_names Samples.python
           Samples.named_model "a" ["b"]
           [("client_id", VStr "123");
            ("model_params",
             VDict [("b", VFloat 2); ("days", VFloat 245); ("a", VFloat 1)])]
           [("b", VFloat 2); ("days", VFloat 245); ("a", VFloat 1)]
           ["days"]).
  - reflexivity.
  - reflexivity.
  - intros k [<- | []]. cbn. intros [H | [H | []]]; discriminate.
  - reflexivity.
  - reflexivity.
Defined.

Lemma validated_lookups_succeed_witness :
  exists mp vec,
    getitem (VDict Samples.ab_request) "model_params" = Ok (VDict mp)
    /\ (forall f, In f ["a"; "b"] -> exists v, getitem (VDict mp) f = Ok v)
    /\ input_data Samples.named_model (VDict mp) = Ok vec
    /\ length vec = 2.
Proof.
  apply (validated_lookups_succeed Samples.python Samples.named_model
           "a" ["b"] (VDict Samples.ab_request)); reflexivity.
Defined.


(** ** Requests that are not what the handler expects *)

Section OddRequests.

Variable rt : Runtime.
Variable model : Model.

(** X1: on a request that is neither a str, a list nor a dict (None, a
    bool, an int, a float) the shape check raises, so validation raises
    too and [handle] answers with the dict holding that error's text under
    [Error].  The error is the [TypeError] of the membership test, except
    for an int of more than 4300 digits, on which the print of the request
    raises [ValueError] first. *)
Theorem handle_scalar_request (p : value) :
  is_scalar p = true ->
  exists e,
    check_required_query_params rt p = Raise e
    /\ validate_params rt model p = Raise e
    /\ handle rt model p = Ok (VDict [("Error", VStr (exn_arg e))])
    /\ ((exn_cls e = TypeError
         /\ forall n, p = VInt n -> int_too_long n = false)
        \/ (e = digits_exn
            /\ exists n, p = VInt n /\ int_too_long n = true)).
Proof.
  intros Hs.
  assert (H : exists e,
             check_required_query_params rt p = Raise e
             /\ ((exn_cls e = TypeError
                  /\ forall n, p = VInt n -> int_too_long n = false)
                 \/ (e = digits_exn
                     /\ exists n, p = VInt n /\ int_too_long n = true))).
  { destruct p as [| b | n | x | s | l | d]; try discriminate;
      unfold check_required_query_params, repr_depth;
      cbn [print_value repr_check bind contains].
    - eexists. split; [reflexivity |]. left. split; [reflexivity |].
      intros n H. discriminate.
    - eexists. split; [reflexivity |]. left. split; [reflexivity |].
      intros n H. discriminate.
    - destruct (int_too_long n) eqn:E; cbn [bind].
      + eexists. split; [reflexivity |]. right. split; [reflexivity |].
        now exists n.
      + eexists. split; [reflexivity |]. left. split; [reflexivity |].
        intros n0 H. now inversion H; subst.
    - eexists. split; [reflexivity |]. left. split; [reflexivity |].
      intros n H. discriminate. }
  destruct H as (e & Hc & Hcls). exists e.
  assert (Hv : validate_params rt model p = Raise e)
    by (unfold validate_params; now rewrite Hc).
  split; [exact Hc | split; [exact Hv | split; [| exact Hcls]]].
  rewrite (handle_validate_raises rt model p e Hv). unfold str_exn.
  destruct Hcls as [[-> _] | [-> _]]; reflexivity.
Qed.

(** X2: a list request that can be printed passes the membership test when
    it has both strings [client_id] and [model_params] among its elements,
    and then indexing it by a string raises a [TypeError] that [handle]
    reports; any other such list is rejected with the validation message.
    A str request that can be printed behaves the same way with
    substrings. *)
Theorem handle_sequence_request :
  (forall l : list value,
      reprs rt (VList l) ->
      (existsb (eq_str "client_id") l && existsb (eq_str "model_params") l
       = true ->
       exists msg,
         check_required_query_params rt (VList l)
         = Raise (mkExn TypeError msg)
         /\ handle rt model (VList l) = Ok (VDict [("Error", VStr msg)]))
      /\ (existsb (eq_str "client_id") l && existsb (eq_str "model_params") l
          = false ->
          check_required_query_params rt (VList l) = Ok false
          /\ handle rt model (VList l)
             = Ok (VDict [("Error", VStr "Problem with parameters")])))
  /\ (forall s : string,
        write ("Query params received: " ++ s) = Ok tt ->
        (str_contains "client_id" s && str_contains "model_params" s = true ->
         exists msg,
           check_required_query_params rt (VStr s)
           = Raise (mkExn TypeError msg)
           /\ handle rt model (VStr s) = Ok (VDict [("Error", VStr msg)]))
        /\ (str_contains "client_id" s && str_contains "model_params" s
            = false ->
            check_required_query_params rt (VStr s) = Ok false
            /\ handle rt model (VStr s)
               = Ok (VDict [("Error", VStr "Problem with parameters")]))).
Proof.
  assert (Hraise : forall p msg,
             check_required_query_params rt p = Raise (mkExn TypeError msg) ->
             handle rt model p = Ok (VDict [("Error", VStr msg)])).
  { intros p msg Hc.
    apply (handle_validate_raises rt model p (mkExn TypeError msg)).
    unfold validate_params. now rewrite Hc. }
  assert (Hfalse : forall p,
             check_required_query_params rt p = Ok false ->
             handle rt model p
             = Ok (VDict [("Error", VStr "Problem with parameters")])).
  { intros p Hc. apply handle_rejected.
    unfold validate_params. now rewrite Hc. }
  split.
  - intros l Hr.
    assert (Hc : check_required_query_params rt (VList l)
                 = if existsb (eq_str "client_id") l
                      && existsb (eq_str "model_params") l
                   then Raise (mkExn TypeError
                          "list indices must be integers or slices, not str")
                   else Ok false).
    { unfold check_required_query_params.
      rewrite print_value_reprs by (reflexivity || assumption).
      cbn [contains bind].
      destruct (existsb (eq_str "client_id") l); cbn [negb bind andb];
        [| reflexivity].
      now destruct (existsb (eq_str "model_params") l). }
    split; intros Hb; rewrite Hb in Hc.
    + eexists. split; [exact Hc | now apply Hraise].
    + split; [exact Hc | now apply Hfalse].
  - intros s Hw.
    assert (Hc : check_required_query_params rt (VStr s)
                 = if str_contains "client_id" s
                      && str_contains "model_params" s
                   then Raise (mkExn TypeError
                          "string indices must be integers, not 'str'")
                   else Ok false).
    { unfold check_required_query_params. cbn [print_value].
      rewrite Hw. cbn [contains bind].
      destruct (str_contains "client_id" s); cbn [negb bind andb];
        [| reflexivity].
      now destruct (str_contains "model_params" s). }
    split; intros Hb; rewrite Hb in Hc.
    + eexists. split; [exact Hc | now apply Hraise].
    + split; [exact Hc | now apply Hfalse].
Qed.

(** X3: on a dict request validation raises only what the print of the
    request raises, a [RecursionError] or the [ValueError] of an int too
    long; when that print raises nothing, validation returns true if the
    shape is right and every required feature is a key of [model_params],
    and false otherwise. *)
Theorem validate_params_total_on_dict (d : dict) :
  (reprs rt (VDict d) ->
   exists b, validate_params rt model (VDict d) = Ok b
     /\ (b = true <->
         exists c mp,
           lookup "client_id" d = Some (VStr c)
           /\ lookup "model_params" d = Some (VDict mp)
           /\ forall n, In n (required_model_params model) ->
                        In n (keys mp)))
  /\ (forall e,
        repr_check (repr_depth rt) (VDict d) = Raise e ->
        validate_params rt model (VDict d) = Raise e
        /\ (e = recursion_exn \/ e = digits_exn)).
Proof.
  split.
  - intros Hr. eexists.
    split; [apply (validate_params_dict_reprs rt model d Hr) |].
    unfold shape_ok. split.
    + intros H.
      destruct (lookup "client_id" d) as [[| | | | c | |] |];
        try discriminate.
      destruct (lookup "model_params" d) as [[| | | | | | mp] |];
        try discriminate.
      exists c, mp. repeat split. now apply forallb_has_key_In.
    + intros (c & mp & -> & -> & Hall). cbn [andb].
      now apply forallb_has_key_In.
  - intros e He. split; [| now apply repr_check_exn in He].
    rewrite validate_params_dict. cbn [print_value]. now rewrite He.
Qed.

(** X4: a dict request that can be printed and whose [model_params] lacks
    a required feature is rejected with the validation message, whatever
    else it holds. *)
Theorem handle_rejects_missing_feature (d mp : dict) (k : string) :
  reprs rt (VDict d) ->
  lookup "model_params" d = Some (VDict mp) ->
  In k (required_model_params model) ->
  ~ In k (keys mp) ->
  validate_params rt model (VDict d) = Ok false
  /\ handle rt model (VDict d)
     = Ok (VDict [("Error", VStr "Problem with parameters")]).
Proof.
  intros Hr Hmp Hk Hnot.
  assert (Hv : validate_params rt model (VDict d) = Ok false).
  { rewrite (validate_params_dict_reprs rt model d Hr), Hmp.
    replace (forallb (fun p => has_key p mp) (required_model_params model))
      with false; [now rewrite andb_false_r |].
    symmetry. apply not_true_is_false. intros Hall.
    apply Hnot. exact (proj1 (forallb_has_key_In _ mp) Hall k Hk). }
  split; [exact Hv | now apply handle_rejected].
Qed.

(** X5: the answer to a dict request that can be printed depends only on
    what is stored under [client_id] and [model_params]; further top-level
    keys whose values can be printed and the order of the top-level keys
    are ignored. *)
Theorem handle_ignores_other_request_keys (d d' : dict) :
  reprs rt (VDict d) ->
  reprs rt (VDict d') ->
  lookup "client_id" d = lookup "client_id" d' ->
  lookup "model_params" d = lookup "model_params" d' ->
  handle rt model (VDict d) = handle rt model (VDict d').
Proof.
  intros Hr Hr' Hc Hmp. rewrite !handle_unfold. unfold handle_try.
  rewrite (validate_params_dict_reprs rt model d Hr).
  rewrite (validate_params_dict_reprs rt model d' Hr').
  unfold shape_ok. cbn [getitem]. now rewrite Hc, Hmp.
Qed.

(** X6: validation looks at the keys of [model_params] only: two requests
    that can be printed and differ in the feature values alone, of
    whatever type, get the same validation result. *)
Theorem validate_params_ignores_feature_values (d mp mp' : dict) :
  reprs rt (VDict d) ->
  reprs rt (VDict (dict_set "model_params" (VDict mp') d)) ->
  lookup "model_params" d = Some (VDict mp) ->
  keys mp' = keys mp ->
  validate_params rt model
    (VDict (dict_set "model_params" (VDict mp') d))
  = validate_params rt model (VDict d).
Proof.
  intros Hr Hr' Hmp Hkeys.
  rewrite (validate_params_dict_reprs rt model d Hr).
  rewrite (validate_params_dict_reprs rt model _ Hr').
  unfold shape_ok.
  rewrite lookup_dict_set_same, Hmp.
  rewrite (lookup_dict_set_other "client_id" "model_params")
    by discriminate.
  do 2 f_equal. apply eq_true_iff_eq.
  rewrite !forallb_has_key_In. now rewrite Hkeys.
Qed.

End OddRequests.

(** ** The feature vector and the prediction *)

Section Inference.

Variable rt : Runtime.
Variable model : Model.

Lemma In_dict_set (k0 : string) (v0 : value) (d : dict) (k : string)
    (v : value) :
  In (k, v) (dict_set k0 v0 d) -> (k, v) = (k0, v0) \/ In (k, v) d.
Proof.
  induction d as [| [k' v'] d IH]; cbn [dict_set].
  - intros [H | []]. now left.
  - destruct (String.eqb k0 k'); cbn [In]; intuition.
Qed.

Lemma In_dict_set_inv (k0 : string) (v0 : value) (d : dict) (k : string)
    (v : value) :
  In (k, v) d ->
  In (k, v) (dict_set k0 v0 d) \/ (k = k0 /\ lookup k0 d = Some v).
Proof.
  induction d as [| [k' v'] d IH]; [intros [] |].
  cbn [dict_set lookup In]. destruct (String.eqb k0 k') eqn:E.
  - apply String.eqb_eq in E. subst k'. intros [H | H].
    + inversion H; subst. now right.
    + left. now right.
  - intros [H | H]; [left; now left |].
    destruct (IH H) as [H' | H']; [left; now right | now right].
Qed.

Lemma repr_check_dict_set (n : nat) (k0 : string) (v0 : value) (d : dict) :
  repr_check (S n) (VDict d) = Ok tt ->
  repr_check n v0 = Ok tt ->
  repr_check (S n) (VDict (dict_set k0 v0 d)) = Ok tt.
Proof.
  intros Hd H0. apply repr_check_dict. intros k v Hin.
  apply In_dict_set in Hin. destruct Hin as [Heq | Hin].
  - now inversion Heq; subst.
  - exact (repr_check_entry n d k v Hd Hin).
Qed.

Lemma repr_check_dict_set_inv (n : nat) (k0 : string) (v0 : value)
    (d : dict) :
  repr_check (S n) (VDict (dict_set k0 v0 d)) = Ok tt ->
  (forall v, lookup k0 d = Some v -> repr_check n v = Ok tt) ->
  repr_check (S n) (VDict d) = Ok tt.
Proof.
  intros Hd H0. apply repr_check_dict. intros k v Hin.
  destruct (In_dict_set_inv k0 v0 d k v Hin) as [Hin' | [_ Hl]].
  - exact (repr_check_entry n _ k v Hd Hin').
  - now apply H0.
Qed.

(** X7: with feature names exposed, the order of the entries of
    [model_params] does not matter: reordering them (keys being distinct,
    as in any dict) leaves the answer of [handle] unchanged whenever the
    request can be printed.  When it cannot, both requests get an error
    object holding the text of what the print raised; which of the two
    errors that is depends on the order. *)
Theorem handle_ignores_feature_order
    (n : string) (ns : list string) (d mp mp' : dict) :
  feature_names model = Some (n :: ns) ->
  lookup "model_params" d = Some (VDict mp) ->
  NoDup (keys mp) ->
  Permutation mp mp' ->
  (reprs rt (VDict d) ->
   handle rt model (VDict (dict_set "model_params" (VDict mp') d))
   = handle rt model (VDict d))
  /\ (forall e,
        repr_check (repr_depth rt) (VDict d) = Raise e ->
        exists e',
          repr_check (repr_depth rt)
            (VDict (dict_set "model_params" (VDict mp') d)) = Raise e'
          /\ handle rt model (VDict d)
             = Ok (VDict [("Error", VStr (exn_arg e))])
          /\ handle rt model (VDict (dict_set "model_params" (VDict mp') d))
             = Ok (VDict [("Error", VStr (exn_arg e'))])).
Proof.
  intros Hf Hmp Hnd Hperm.
  set (d' := dict_set "model_params" (VDict mp') d).
  assert (Hmp' : lookup "model_params" d' = Some (VDict mp'))
    by apply lookup_dict_set_same.
  assert (Hcid : lookup "client_id" d' = lookup "client_id" d)
    by (apply lookup_dict_set_other; discriminate).
  assert (Herr : forall q e,
             repr_check (repr_depth rt) (VDict q) = Raise e ->
             handle rt model (VDict q)
             = Ok (VDict [("Error", VStr (exn_arg e))])).
  { intros q e He.
    assert (Hv : validate_params rt model (VDict q) = Raise e)
      by (rewrite validate_params_dict; cbn [print_value]; now rewrite He).
    rewrite (handle_validate_raises rt model _ e Hv). unfold str_exn.
    apply repr_check_exn in He. destruct He as [-> | ->]; reflexivity. }
  split.
  - intros Hr.
    assert (Hr' : reprs rt (VDict d')).
    { unfold reprs, repr_depth in Hr |- *. apply repr_check_dict_set;
        [exact Hr |].
      apply (repr_check_dict_Permutation _ mp mp' Hperm).
      apply (repr_check_entry _ d "model_params" _ Hr).
      now apply lookup_In. }
    assert (Hval : validate_params rt model (VDict d')
                   = validate_params rt model (VDict d)).
    { rewrite (validate_params_dict_reprs rt model d Hr).
      rewrite (validate_params_dict_reprs rt model d' Hr').
      unfold shape_ok. rewrite Hmp', Hcid, Hmp. do 2 f_equal.
      apply eq_true_iff_eq. rewrite !forallb_has_key_In.
      split; intros H k Hk; specialize (H k Hk); revert H; unfold keys;
        apply Permutation_in, Permutation_map;
        [now apply Permutation_sym | assumption]. }
    destruct (validate_params rt model (VDict d)) as [[|] | e] eqn:Hv.
    + destruct (validate_params_true rt model _ Hv)
        as (d0 & c & mp0 & Heq & Hc & _).
      inversion Heq; subst d0. rewrite <- Hcid in Hc.
      destruct (handle_try_validated rt model d' mp' c Hval Hc Hmp')
        as [Hrm' Ht'].
      rewrite Hcid in Hc.
      destruct (handle_try_validated rt model d mp c Hv Hc Hmp)
        as [Hrm Ht].
      rewrite !handle_unfold, Ht, Ht'.
      rewrite (credit_rating_predict_reprs rt model mp Hrm).
      rewrite (credit_rating_predict_reprs rt model mp' Hrm').
      unfold input_data. rewrite Hf.
      rewrite (mapM_getitem_ext (n :: ns) mp mp'); [reflexivity |].
      intros k _. now apply lookup_Permutation.
    + now rewrite !(handle_rejected rt model).
    + rewrite (validate_params_dict_reprs rt model d Hr) in Hv.
      discriminate.
  - intros e He.
    destruct (repr_check (repr_depth rt) (VDict d')) as [[] | e'] eqn:He'.
    + exfalso. unfold repr_depth in He, He'.
      assert (Hok : repr_check (S (S (spare_depth rt))) (VDict d) = Ok tt).
      { apply (repr_check_dict_set_inv _ "model_params" (VDict mp') d He').
        intros v Hv. rewrite Hmp in Hv. inversion Hv; subst v.
        apply (repr_check_dict_Permutation _ mp' mp);
          [now apply Permutation_sym |].
        apply (repr_check_entry _ d' "model_params" _ He').
        now apply lookup_In. }
      congruence.
    + exists e'. split; [reflexivity | split].
      * now apply Herr.
      * now apply Herr.
Qed.

(** X8: [handle] answers with a prediction only for a request that passed
    validation: the request is then a dict with a string [client_id],
    echoed in the answer, and the rating is what [credit_rating_predict]
    returned on its [model_params]. *)
Theorem prediction_only_after_validation (p cid : value) (y : float) :
  handle rt model p
  = Ok (VDict [("client_id", cid); ("predicted_credit_rating", VFloat y)]) ->
  validate_params rt model p = Ok true
  /\ exists d c mp,
       p = VDict d /\ cid = VStr c
       /\ lookup "client_id" d = Some (VStr c)
       /\ lookup "model_params" d = Some (VDict mp)
       /\ credit_rating_predict rt model (VDict mp) = Ok y.
Proof.
  rewrite handle_unfold. intros H.
  destruct (handle_try rt model p) as [r | e] eqn:Ht; cbn [try_except] in H.
  - unfold handle_try in Ht.
    destruct (validate_params rt model p) as [[|] | e] eqn:Hv;
      cbn [bind negb] in Ht;
      [| rewrite <- Ht in H; discriminate H | discriminate].
    split; [reflexivity |].
    destruct (validate_params_true rt model p Hv)
      as (d & c & mp & -> & Hc & Hmp & _).
    cbn [getitem] in Ht. rewrite Hmp, Hc in Ht. cbn [bind] in Ht.
    destruct (print_value _ _ (VStr c)); cbn [bind] in Ht; [| discriminate].
    destruct (print_value _ _ (VDict mp)); cbn [bind] in Ht;
      [| discriminate].
    destruct (credit_rating_predict rt model (VDict mp)) as [y0 | e] eqn:Hy;
      cbn [bind] in Ht; [| discriminate].
    rewrite <- Ht in H. unfold to_float in H. inversion H. subst.
    exists d, c, mp. repeat split; assumption.
  - destruct (print_exn "Error while handling request: " e);
      cbn [bind] in H; discriminate.
Qed.

(** X9: with feature names exposed and a dict that lacks one of them, the
    assembly of the vector raises [KeyError] for the first missing name in
    schema order; [credit_rating_predict] raises that [KeyError], before
    the model is asked anything, when the dict can be printed, and what
    the print raises when it cannot. *)
Theorem credit_rating_predict_missing_feature
    (n : string) (ns pre post : list string) (k : string) (mp : dict) :
  feature_names model = Some (n :: ns) ->
  n :: ns = pre ++ k :: post ->
  (forall j, In j pre -> In j (keys mp)) ->
  ~ In k (keys mp) ->
  input_data model (VDict mp) = Raise (mkExn KeyError k)
  /\ (reprs rt (VDict mp) ->
      credit_rating_predict rt model (VDict mp) = Raise (mkExn KeyError k))
  /\ (forall e,
        repr_check (repr_depth rt) (VDict mp) = Raise e ->
        credit_rating_predict rt model (VDict mp) = Raise e).
Proof.
  intros Hf Hsplit Hpre Hk.
  assert (H : input_data model (VDict mp) = Raise (mkExn KeyError k)).
  { unfold input_data. rewrite Hf, Hsplit.
    now apply mapM_getitem_first_missing. }
  split; [exact H | split].
  - intros Hr. rewrite (credit_rating_predict_reprs rt model mp Hr).
    now rewrite H.
  - intros e He. unfold credit_rating_predict. cbn [print_value].
    now rewrite He.
Qed.

(** X10: when the keys of [model_params] are exactly the feature names in
    schema order, the vector built by name is the list of values, so the
    two branches of [credit_rating_predict] build the same vector. *)
Theorem input_data_in_schema_order_is_values
    (n : string) (ns : list string) (mp : dict) :
  feature_names model = Some (n :: ns) ->
  keys mp = n :: ns ->
  NoDup (keys mp) ->
  input_data model (VDict mp) = values (VDict mp).
Proof.
  intros Hf Hkeys Hnd. unfold input_data. rewrite Hf, <- Hkeys.
  cbn [values]. apply mapM_getitem_entries.
  intros k v Hin. now apply In_lookup_NoDup.
Qed.

(** X11: [check_required_model_params] does not check that it got a dict:
    on None, a bool, an int or a float it raises, a [TypeError] from the
    membership test or, for an int too long to print, a [ValueError]; on a
    list that can be printed it returns whether every required name is an
    element of the list. *)
Theorem check_required_model_params_non_dict :
  (forall v : value,
      is_scalar v = true ->
      exists e,
        check_required_model_params rt model v = Raise e
        /\ (exn_cls e = TypeError \/ e = digits_exn))
  /\ (forall l : list value,
        reprs rt (VList l) ->
        check_required_model_params rt model (VList l)
        = Ok (forallb (fun p => existsb (eq_str p) l)
                      (required_model_params model))).
Proof.
  split.
  - intros v Hs. unfold check_required_model_params.
    pose proof (required_model_params_nonempty model) as Hne.
    destruct (required_model_params model) as [| r rs]; [congruence |].
    destruct v as [| b | z | x | s | l | d]; try discriminate;
      unfold repr_depth; cbn [print_value repr_check bind filterM contains].
    1,2,4: eexists; split; [reflexivity | now left].
    destruct (int_too_long z); cbn [bind];
      eexists; (split; [reflexivity |]); [now right | now left].
  - intros l Hr. unfold check_required_model_params.
    rewrite print_value_reprs by (reflexivity || assumption). cbn [bind].
    assert (Hf : forall req,
               filterM (fun p => b <- contains p (VList l) ;; Ok (negb b)) req
               = Ok (filter (fun p => negb (existsb (eq_str p) l)) req)).
    { induction req as [| p ps IH]; [reflexivity |].
      cbn [filterM contains bind filter].
      cbn [filterM contains bind] in IH. now rewrite IH. }
    rewrite Hf. cbn [bind iter].
    replace (match filter (fun p => negb (existsb (eq_str p) l))
                     (required_model_params model) with
             | [] => Ok tt
             | _ :: _ =>
                 print_value (repr_depth rt) "Missing required params: "
                   (VList (map VStr
                      (filter (fun p => negb (existsb (eq_str p) l))
                         (required_model_params model))))
             end) with (@Ok unit tt)
      by (rewrite print_names; now destruct (filter _ _)).
    cbn [bind].
    match goal with
    | |- context [match ?x with [] => Ok tt | _ :: _ => print_value ?a ?b _ end] =>
        replace (match x with [] => Ok tt | _ :: _ => print_value a b (VList x) end)
          with (@Ok unit tt)
    end.
    + cbn [bind].
      induction (required_model_params model) as [| p ps IH];
        [reflexivity |].
      cbn [allM contains bind forallb].
      destruct (existsb (eq_str p) l); [exact IH | reflexivity].
    + match goal with
      | |- _ = match ?x with _ => _ end => destruct x eqn:Ex
      end; [reflexivity |].
      rewrite <- Ex. symmetry. apply print_value_reprs; [reflexivity |].
      unfold reprs, repr_depth in Hr |- *. apply repr_check_list.
      intros w Hin. apply filter_In in Hin. destruct Hin as [Hin _].
      exact (repr_check_item _ l w Hr Hin).
Qed.

End Inference.

(** ** Start-up *)

Section StartupProperties.

Variable load_model : string -> result Model.
Variable rt : Runtime.


(** X13: run against a model without feature names, the script's test
    request passes validation against the six default names, yet the model
    receives all nineteen values of the request in the order written; the
    script's answer is the dict with [client_id] 123 and, under
    [predicted_credit_rating], the first value the model returns. *)
Theorem main_without_feature_names (m : Model) :
  load_model "models/catboost_credit_model.bin" = Ok m ->
  feature_names_ m = None \/ feature_names_ m = Some [] ->
  validate_params rt m Startup.test_params = Ok true
  /\ length (required_model_params m) = 6
  /\ input_data m (VDict Startup.test_model_params)
     = Ok (map snd Startup.test_model_params)
  /\ length (map snd Startup.test_model_params) = 19
  /\ forall y out,
       predict m [map snd Startup.test_model_params] = Ok (y :: out) ->
       Startup.main load_model rt
       = Ok (VDict [("client_id", VStr "123");
                    ("predicted_credit_rating", VFloat y)]).
Proof.
  intros Hload Hnames.
  assert (Hreq : required_model_params m
                 = ["gender"; "Type"; "PaperlessBilling"; "PaymentMethod";
                    "MonthlyCharges"; "TotalCharges"])
    by (unfold required_model_params, feature_names;
        destruct Hnames as [-> | ->]; reflexivity).
  assert (Hin : input_data m (VDict Startup.test_model_params)
                = Ok (map snd Startup.test_model_params))
    by (unfold input_data, feature_names;
        destruct Hnames as [-> | ->]; reflexivity).
  assert (Hr : reprs rt Startup.test_params)
    by (unfold reprs, repr_depth; destruct (spare_depth rt); reflexivity).
  assert (Hv : validate_params rt m Startup.test_params = Ok true)
    by (unfold Startup.test_params in *;
        rewrite (validate_params_dict_reprs rt m _ Hr), Hreq; reflexivity).
  split; [exact Hv | split; [now rewrite Hreq | split; [exact Hin |]]].
  split; [reflexivity |].
  intros y out Hp.
  unfold Startup.main, Startup.init, Startup.load_credit_model.
  rewrite Hload. cbn [try_except bind Startup.h_model].
  apply handle_of_ok. unfold Startup.test_params in *.
  destruct (handle_try_validated rt m _ Startup.test_model_params "123"
              Hv eq_refl eq_refl) as [Hrm Ht].
  assert (Hw : write ("Predicting for client_id: " ++ "123") = Ok tt)
    by reflexivity.
  rewrite Ht, Hw. cbn [bind].
  rewrite (credit_rating_predict_reprs rt m _ Hrm), Hin. cbn [bind].
  rewrite Hp. reflexivity.
Qed.

End StartupProperties.

Lemma handle_scalar_request_witness :
  exists e,
    check_required_query_params Samples.python (VInt 7) = Raise e
    /\ validate_params Samples.python Samples.named_model (VInt 7) = Raise e
    /\ handle Samples.python Samples.named_model (VInt 7)
       = Ok (VDict [("Error", VStr (exn_arg e))])
    /\ ((exn_cls e = TypeError
         /\ forall n, VInt 7 = VInt n -> int_too_long n = false)
        \/ (e = digits_exn
            /\ exists n, VInt 7 = VInt n /\ int_too_long n = true)).
Proof.
  apply (handle_scalar_request Samples.python Samples.named_model (VInt 7)).
  reflexivity.
Defined.

Lemma handle_sequence_request_witness :
  exists msg,
    check_required_query_params Samples.python Samples.list_request
    = Raise (mkExn TypeError msg)
    /\ handle Samples.python Samples.named_model Samples.list_request
       = Ok (VDict [("Error", VStr msg)]).
Proof.
  apply (proj1 (proj1 (handle_sequence_request Samples.python
                         Samples.named_model)
                      [VStr "client_id"; VStr "model_params"] eq_refl)).
  reflexivity.
Defined.

Lemma handle_rejects_missing_feature_witness :
  validate_params Samples.python Samples.named_model
    (VDict [("client_id", VStr "1"); ("model_params", VDict [("a", VInt 1)])])
  = Ok false
  /\ handle Samples.python Samples.named_model
       (VDict [("client_id", VStr "1");
               ("model_params", VDict [("a", VInt 1)])])
     = Ok (VDict [("Error", VStr "Problem with parameters")]).
Proof.
  apply (handle_rejects_missing_feature Samples.python Samples.named_model
           [("client_id", VStr "1"); ("model_params", VDict [("a", VInt 1)])]
           [("a", VInt 1)] "b").
  - reflexivity.
  - reflexivity.
  - cbn. auto.
  - cbn. intros [H | []]. discriminate.
Defined.

Lemma handle_ignores_other_request_keys_witness :
  handle Samples.python Samples.named_model (VDict Samples.ab_request)
  = handle Samples.python Samples.named_model
      (VDict (("trace", VInt 1) :: rev Samples.ab_request)).
Proof.
  apply (handle_ignores_other_request_keys Samples.python
           Samples.named_model Samples.ab_request
           (("trace", VInt 1) :: rev Samples.ab_request));
    reflexivity.
Defined.

Lemma validate_params_ignores_feature_values_witness :
  validate_params Samples.python Samples.named_model
    (VDict (dict_set "model_params"
              (VDict [("b", VStr "x"); ("a", VNone)]) Samples.ab_request))
  = validate_params Samples.python Samples.named_model
      (VDict Samples.ab_request).
Proof.
  apply (validate_params_ignores_feature_values Samples.python
           Samples.named_model
           Samples.ab_request [("b", VFloat 2); ("a", VFloat 1)]
           [("b", VStr "x"); ("a", VNone)]);
    reflexivity.
Defined.

Lemma handle_ignores_feature_order_witness :
  handle Samples.python Samples.named_model
    (VDict (dict_set "model_params"
              (VDict [("a", VFloat 1); ("b", VFloat 2)]) Samples.ab_request))
  = handle Samples.python Samples.named_model (VDict Samples.ab_request).
Proof.
  apply (proj1 (handle_ignores_feature_order Samples.python
                  Samples.named_model
                  "a" ["b"] Samples.ab_request
                  [("b", VFloat 2); ("a", VFloat 1)]
                  [("a", VFloat 1); ("b", VFloat 2)]
                  eq_refl eq_refl
                  ltac:(cbn; repeat constructor; cbn; intuition discriminate)
                  (perm_swap _ _ _))).
  reflexivity.
Defined.

Lemma prediction_only_after_validation_witness :
  validate_params Samples.python Samples.named_model
    (VDict Samples.ab_request) = Ok true
  /\ exists d c mp,
       VDict Samples.ab_request = VDict d /\ VStr "123" = VStr c
       /\ lookup "client_id" d = Some (VStr c)
       /\ lookup "model_params" d = Some (VDict mp)
       /\ credit_rating_predict Samples.python Samples.named_model (VDict mp)
          = Ok 3%float.
Proof.
  apply (prediction_only_after_validation Samples.python
           Samples.named_model (VDict Samples.ab_request) (VStr "123")
           3%float).
  reflexivity.
Defined.

Lemma credit_rating_predict_missing_feature_witness :
  input_data Samples.named_model (VDict [("a", VInt 1)])
  = Raise (mkExn KeyError "b")
  /\ credit_rating_predict Samples.python Samples.named_model
       (VDict [("a", VInt 1)])
     = Raise (mkExn KeyError "b").
Proof.
  destruct (credit_rating_predict_missing_feature Samples.python
              Samples.named_model "a" ["b"] ["a"] [] "b" [("a", VInt 1)])
    as (Hin & Hcrp & _).
  - reflexivity.
  - reflexivity.
  - cbn. intros j [<- | []]. now left.
  - cbn. intros [H | []]. discriminate.
  - split; [exact Hin | apply Hcrp; reflexivity].
Defined.

Lemma input_data_in_schema_order_is_values_witness :
  input_data Samples.named_model (VDict [("a", VInt 1); ("b", VInt 2)])
  = values (VDict [("a", VInt 1); ("b", VInt 2)]).
Proof.
  apply (input_data_in_schema_order_is_values Samples.named_model "a" ["b"]
           [("a", VInt 1); ("b", VInt 2)]).
  - reflexivity.
  - reflexivity.
  - cbn. repeat constructor; cbn; intuition discriminate.
Defined.

Lemma check_required_model_params_non_dict_witness :
  exists e,
    check_required_model_params Samples.python Samples.named_model VNone
    = Raise e
    /\ (exn_cls e = TypeError \/ e = digits_exn).
Proof.
  apply (proj1 (check_required_model_params_non_dict Samples.python
                  Samples.named_model)
               VNone).
  reflexivity.
Defined.


Lemma main_without_feature_names_witness :
  validate_params Samples.python Samples.unnamed_model Startup.test_params
  = Ok true.
Proof.
  apply (proj1 (main_without_feature_names Samples.load_unnamed
                  Samples.python Samples.unnamed_model eq_refl
                  (or_introl eq_refl))).
Defined.

Lemma validate_params_total_on_dict_witness :
  exists b,
    validate_params Samples.python Samples.named_model
      (VDict Samples.ab_request) = Ok b
    /\ (b = true <->
        exists c mp,
          lookup "client_id" Samples.ab_request = Some (VStr c)
          /\ lookup "model_params" Samples.ab_request = Some (VDict mp)
          /\ forall n, In n (required_model_params Samples.named_model) ->
                       In n (keys mp)).
Proof.
  apply (proj1 (validate_params_total_on_dict Samples.python
                  Samples.named_model Samples.ab_request)).
  reflexivity.
Defined.
